(** * Shallow embedding of [get_audit_logs.py]

    The module-level helpers, [VerkadaSession.request],
    [VerkadaSession.request_all_pages], [VerkadaAPI.__init__],
    [VerkadaAPI._readToken], [VerkadaAPI._refreshToken], the query building
    of [getAuditLogsViewV1] and [getNotificationsViewV1], and the time window
    and event filter of the command-line script of the Verkada audit-log
    client, over a small model of Python values and exceptions. *)

From Stdlib Require Import ZArith List String Ascii Bool Lia.
Import ListNotations.
Open Scope string_scope.
Open Scope Z_scope.
Open Scope list_scope.
Set Warnings "-register-all".

(** ** Python values *)

(** The values the client handles: query parameters and decoded JSON bodies
    ([json.load] / [response.json()]; JSON null is [None], JSON numbers are
    modelled as integers). A [dict] is an association list in insertion order
    with at most one entry per key. *)
Inductive pyval : Type :=
| PNone
| PBool (b : bool)
| PInt (z : Z)
| PStr (s : string)
| PList (l : list pyval)
| PDict (d : list (string * pyval)).

(** [d.get(k)] / the lookup under [d[k]]. *)
Fixpoint dict_get {A} (k : string) (d : list (string * A)) : option A :=
  match d with
  | [] => None
  | (k', v) :: d' => if String.eqb k k' then Some v else dict_get k d'
  end.

(** [d[k] = v]: replaces the entry in place, or appends a new one. *)
Fixpoint dict_set {A} (k : string) (v : A) (d : list (string * A))
  : list (string * A) :=
  match d with
  | [] => [(k, v)]
  | (k', v') :: d' =>
      if String.eqb k k' then (k, v) :: d' else (k', v') :: dict_set k v d'
  end.

(** Python truthiness ([bool(x)]). *)
Definition truthy (v : pyval) : bool :=
  match v with
  | PNone => false
  | PBool b => b
  | PInt z => negb (Z.eqb z 0)
  | PStr s => negb (String.eqb s "")
  | PList l => negb (Nat.eqb (List.length l) 0)
  | PDict d => negb (Nat.eqb (List.length d) 0)
  end.

(** [v is not None]. *)
Definition is_not_None (v : pyval) : bool :=
  match v with PNone => false | _ => true end.

(** ** Exceptions

    [ConnectionError], [Timeout] and [RequestException] are those of
    [requests.exceptions] ([RequestException n] stands for any other
    subclass of [RequestException]); [OtherException n] for any exception
    outside that hierarchy raised by the underlying call. *)
Inductive pyexc : Type :=
| ConnectionError
| Timeout
| RequestException (n : nat)
| OtherException (n : nat)
| VerkadaTokenExpiredError
| VerkadaAuthenticationError
| VerkadaConnectionError (cause : option pyexc)
| KeyError (k : string)
| TypeError
| AttributeError
| JSONDecodeError.

(** ** [clean_params] (lines 28-30) *)

(** [{k: v for k, v in params.items() if v is not None}] *)
Definition clean_params (params : list (string * pyval)) : list (string * pyval) :=
  filter (fun kv => is_not_None (snd kv)) params.

(** ** Module constants (lines 12-20) *)

Definition DEFAULT_TOKEN_EXPIRATION_TIME : Z := 25.
Definition RETRY_WAIT_TIME : Z := 10.
Definition MAX_RETRIES : Z := 3.

(** ** [VerkadaSession.request] (lines 68-152) *)

(** What one call of [self.session.request(...)] yields: a response with its
    status code, or an exception raised by [requests]. *)
Inductive attempt : Type :=
| Resp (status : Z)
| Raises (e : pyexc).

(** The local variables of [request] that survive an iteration of the
    [while] loop, plus the effects that the claims observe: the number of
    calls made to the underlying session and the [time.sleep] calls. *)
Record req_state : Type := mkReq {
  retries : Z;
  last_exception : option pyexc;
  calls : nat;
  sleeps : list Z
}.

(** How [request] ends: it returns the response, or raises. *)
Inductive req_result : Type :=
| Returned (status : Z)
| Raised (e : pyexc).

(** Outcome of one iteration of the [while] body. *)
Inductive step_result : Type :=
| Continue (st : req_state)
| Stop (r : req_result) (st : req_state).

(** [retries -= 1] followed by
    [if retries > 0: time.sleep((self.max_retries - retries) * RETRY_WAIT_TIME)]. *)
Definition backoff (max_retries : Z) (st : req_state) : req_state :=
  let r := retries st - 1 in
  mkReq r (last_exception st) (calls st)
    (if 0 <? r then sleeps st ++ [(max_retries - r) * RETRY_WAIT_TIME]
     else sleeps st).

(** [except (ConnectionError, Timeout)] and [except RequestException]: both
    record [last_exception] and back off. *)
Definition is_request_exception (e : pyexc) : bool :=
  match e with
  | ConnectionError | Timeout | RequestException _ => true
  | _ => false
  end.

Definition is_transport (e : pyexc) : bool :=
  match e with
  | ConnectionError | Timeout => true
  | _ => false
  end.

(** The body of the [try] block and its [except] clauses, for one attempt. *)
Definition request_step (max_retries : Z) (st : req_state) (a : attempt)
  : step_result :=
  let st := mkReq (retries st) (last_exception st) (S (calls st)) (sleeps st) in
  match a with
  | Resp status =>
      if (200 <=? status) && (status <? 300) then Stop (Returned status) st
      else if status =? 401 then
        (* raise VerkadaTokenExpiredError, caught by its own except clause,
           which only logs *)
        Continue st
      else if status =? 409 then
        (* raise VerkadaAuthenticationError, re-raised by except Exception *)
        Stop (Raised VerkadaAuthenticationError) st
      else if status =? 429 then
        Continue (mkReq (retries st - 1) (last_exception st) (calls st)
                    (sleeps st ++ [RETRY_WAIT_TIME]))
      else if 500 <=? status then Continue (backoff max_retries st)
      else if (400 <=? status) && (status <? 500) then
        Continue (backoff max_retries st)
      else Continue st
  | Raises e =>
      if is_request_exception e then
        Continue (backoff max_retries
                    (mkReq (retries st) (Some e) (calls st) (sleeps st)))
      else match e with
           | VerkadaTokenExpiredError => Continue st
           | _ => Stop (Raised e) st
           end
  end.

(** The code after the loop (lines 143-152). *)
Definition exhausted_error (last : option pyexc) : pyexc :=
  match last with
  | Some e => if is_transport e then VerkadaConnectionError (Some e) else e
  | None => VerkadaConnectionError None
  end.

(** The [while retries > 0] loop; the [n]-th call of the underlying session
    yields [resp n]. [None] means that [fuel] iterations did not suffice. *)
Fixpoint request_loop (fuel : nat) (max_retries : Z) (resp : nat -> attempt)
    (st : req_state) : option (req_result * req_state) :=
  match fuel with
  | O => None
  | S fuel' =>
      if 0 <? retries st then
        match request_step max_retries st (resp (calls st)) with
        | Continue st' => request_loop fuel' max_retries resp st'
        | Stop r st' => Some (r, st')
        end
      else Some (Raised (exhausted_error (last_exception st)), st)
  end.

(** [retries = self.max_retries; last_exception = None]. *)
Definition req_init (max_retries : Z) : req_state := mkReq max_retries None O [].

Definition request (fuel : nat) (max_retries : Z) (resp : nat -> attempt)
  : option (req_result * req_state) :=
  request_loop fuel max_retries resp (req_init max_retries).

(** A finite list of attempts; past its end every call answers 200. *)
Definition attempts (l : list attempt) (n : nat) : attempt :=
  nth n l (Resp 200).

(** ** Token handling: [VerkadaAPI._refreshToken] and [_readToken]
    (lines 216-236) *)

(** What [self.session.request(...)] gives back to its caller: the decoded
    body of the successful response ([res.json()]), or an exception. *)
Inductive call_result : Type :=
| CallOk (body : pyval)
| CallRaise (e : pyexc).

(** [x[k]] on a decoded JSON value with a string key: [KeyError] on a dict
    without [k], [TypeError] on anything that is not a dict. *)
Definition getitem (x : pyval) (k : string) : pyval + pyexc :=
  match x with
  | PDict d => match dict_get k d with Some v => inl v | None => inr (KeyError k) end
  | _ => inr TypeError
  end.

(** The file [token.json]: absent, or present with a content that
    [json.load] decodes ([Some v]) or rejects ([None]). *)
Inductive token_file : Type :=
| FileAbsent
| FileText (decoded : option pyval).

(** The attributes of [VerkadaAPI] that the token code writes, and the
    token file. *)
Record api_state : Type := mkApi {
  token : pyval;
  timestamp : pyval;
  file : token_file
}.

(** [_refreshToken]: one POST to [/token] (its outcome is [post]); [now] is
    [int(time.time())]. *)
Definition refresh_token (now : Z) (post : call_result) (st : api_state)
  : api_state + pyexc :=
  match post with
  | CallRaise e => inr e
  | CallOk body =>
      match getitem body "token" with
      | inr e => inr e
      | inl tok =>
          inl (mkApi tok (PInt now)
                 (FileText (Some (PDict [("token", tok); ("timestamp", PInt now)]))))
      end
  end.

(** [a < b] between a decoded JSON value and an int: [bool] compares as
    [0]/[1]; [None], strings, lists and dicts raise [TypeError]. *)
Definition py_lt_int (a : pyval) (b : Z) : bool + pyexc :=
  match a with
  | PInt z => inl (z <? b)
  | PBool x => inl ((if x then 1 else 0) <? b)
  | _ => inr TypeError
  end.

(** [self.timestamp < int(time.time()) - DEFAULT_TOKEN_EXPIRATION_TIME * 60] *)
Definition token_expired (now : Z) (ts : pyval) : bool + pyexc :=
  py_lt_int ts (now - DEFAULT_TOKEN_EXPIRATION_TIME * 60).

(** [d.get(k)] *)
Definition dict_get_or_None (k : string) (d : list (string * pyval)) : pyval :=
  match dict_get k d with Some v => v | None => PNone end.

(** [_readToken]; the refresh it may call makes the POST whose outcome is
    [post]. A non-dict JSON value has no [.get] ([AttributeError]). *)
Definition read_token (now : Z) (post : call_result) (st : api_state)
  : api_state + pyexc :=
  match file st with
  | FileAbsent => refresh_token now post st
  | FileText None => inr JSONDecodeError
  | FileText (Some data) =>
      match data with
      | PDict d =>
          let st1 := mkApi (dict_get_or_None "token" d)
                           (dict_get_or_None "timestamp" d) (file st) in
          match token_expired now (timestamp st1) with
          | inr e => inr e
          | inl true => refresh_token now post st1
          | inl false => inl st1
          end
      | _ => inr AttributeError
      end
  end.

(** ** [VerkadaSession.request_all_pages] (lines 161-181) *)

(** [lst.extend(v)] for a decoded JSON value [v]: a list adds its items, a
    string its characters, a dict its keys; other values are not iterable. *)
Definition iter_items (v : pyval) : list pyval + pyexc :=
  match v with
  | PList l => inl l
  | PStr s => inl (map (fun c => PStr (String c EmptyString)) (list_ascii_of_string s))
  | PDict d => inl (map (fun kv => PStr (fst kv)) d)
  | _ => inr TypeError
  end.

(** [for k in keys: data[k] = []] *)
Definition init_data (keys : list string) : list (string * list pyval) :=
  fold_left (fun d k => dict_set k [] d) keys [].

(** [for k in keys: data[k].extend(response.json()[k])] *)
Fixpoint extend_all (keys : list string) (body : pyval)
    (data : list (string * list pyval)) : list (string * list pyval) + pyexc :=
  match keys with
  | [] => inl data
  | k :: keys' =>
      match getitem body k with
      | inr e => inr e
      | inl v =>
          match iter_items v with
          | inr e => inr e
          | inl items =>
              let cur := match dict_get k data with Some l => l | None => [] end in
              extend_all keys' body (dict_set k (cur ++ items) data)
          end
      end
  end.

(** The loop state: [next_page_token], [number_of_pages], [data], and the
    [page_token] parameter sent with each request. *)
Record page_state : Type := mkPages {
  next_page_token : pyval;
  number_of_pages : nat;
  data : list (string * list pyval);
  sent_tokens : list pyval
}.

(** How [request_all_pages] ends. [PagesNoResponse] is outside the program:
    the modelled server has no answer left. *)
Inductive pages_result : Type :=
| PagesDone (st : page_state)
| PagesRaised (e : pyexc)
| PagesNoResponse.

(** The [while next_page_token or number_of_pages == 0] loop; the successive
    calls of [self.request] answer [server] in order. *)
Fixpoint pages_loop (fuel : nat) (keys : list string) (server : list call_result)
    (st : page_state) : option pages_result :=
  match fuel with
  | O => None
  | S fuel' =>
      if truthy (next_page_token st) || Nat.eqb (number_of_pages st) 0 then
        let sent := sent_tokens st ++ [next_page_token st] in
        match server with
        | [] => Some PagesNoResponse
        | CallRaise e :: _ => Some (PagesRaised e)
        | CallOk body :: server' =>
            match getitem body "next_page_token" with
            | inr e => Some (PagesRaised e)
            | inl tok =>
                match extend_all keys body (data st) with
                | inr e => Some (PagesRaised e)
                | inl d =>
                    pages_loop fuel' keys server'
                      (mkPages tok (S (number_of_pages st)) d sent)
                end
            end
        end
      else Some (PagesDone st)
  end.

(** [request_all_pages]: the result's [json()] is [data]. *)
Definition request_all_pages (fuel : nat) (keys : list string)
    (server : list call_result) : option pages_result :=
  pages_loop fuel keys server (mkPages PNone O (init_data keys) []).

(** ** API facade: [getAuditLogsViewV1], [getNotificationsViewV1]
    (lines 254-316) *)

Definition DEFAULT_PAGE_SIZE : Z := 100.

(** The cleaned [query_params] of [getAuditLogsViewV1]; an [Optional]
    argument is [PNone] when not given. *)
Definition audit_log_query (start_time end_time page_size : pyval)
  : list (string * pyval) :=
  clean_params [("start_time", start_time); ("end_time", end_time);
                ("page_size", page_size)].

(** The cleaned [query_params] of [getNotificationsViewV1]. *)
Definition notifications_query (start_time end_time include_image_url page_size
    notification_type : pyval) : list (string * pyval) :=
  clean_params [("start_time", start_time); ("end_time", end_time);
                ("include_image_url", include_image_url); ("page_size", page_size);
                ("notification_type", notification_type)].

(** [kwargs['params']['page_token'] = next_page_token]: [request_all_pages]
    writes the token into the caller's (shared) params dict before each
    request, so the request that sends [tok] carries these params. *)
Definition with_page_token (params : list (string * pyval)) (tok : pyval)
  : list (string * pyval) :=
  dict_set "page_token" tok params.

(** [getAuditLogsViewV1]: [request_all_pages] over [['audit_logs']]; the
    second component lists the params of each request made. *)
Definition get_audit_logs (fuel : nat) (start_time end_time page_size : pyval)
    (server : list call_result) : option (pages_result * list (list (string * pyval))) :=
  let q := audit_log_query start_time end_time page_size in
  match request_all_pages fuel ["audit_logs"] server with
  | Some (PagesDone st) => Some (PagesDone st, map (with_page_token q) (sent_tokens st))
  | Some r => Some (r, [])
  | None => None
  end.

(** ** [VerkadaAPI.__init__] (lines 185-214) *)

Record api_obj : Type := mkObj {
  api_key : pyval;
  api : api_state
}.

(** [a or b] *)
Definition py_or (a b : pyval) : pyval := if truthy a then a else b.

(** [VerkadaAPI(api_key)]: [env] is [os.environ.get('VERKADA_API_KEY')],
    [f] the token file, [now] the time of the calls. The POST that
    [_readToken] may make answers [p1], the one in the [try] block [p2],
    the one in the [except VerkadaTokenExpiredError] block [p3]. In that
    block [token] is the [None] that [_refreshToken] returns. *)
Definition api_init (api_key env : pyval) (f : token_file) (now : Z)
    (p1 p2 p3 : call_result) : api_obj + pyexc :=
  let st0 := mkApi PNone PNone f in
  if negb (truthy api_key) && negb (truthy env) then inl (mkObj PNone st0)
  else
    let key := py_or api_key env in
    match read_token now p1 st0 with
    | inr e => inr e
    | inl st1 =>
        if truthy (token st1) then inl (mkObj key st1)
        else
          match refresh_token now p2 st1 with
          | inl st2 => inl (mkObj key st2)
          | inr VerkadaTokenExpiredError =>
              match refresh_token now p3 st1 with
              | inl st3 => inl (mkObj key (mkApi PNone (timestamp st3) (file st3)))
              | inr e => inr e
              end
          | inr e => inr e
          end
    end.

(** ** The command-line script (lines 319-364) *)

Definition CRON_INTERVAL_MINUTES : Z := 15.

(** The time window of the script. [now_local] is [datetime.now()] as
    whole seconds of the local wall clock counted from 1970-01-01 00:00, and
    [offset] the local UTC offset in seconds ([.timestamp()] of a naive
    datetime subtracts it), taken as fixed. [None] is [parser.error]. *)
Definition cli_time_window (start end_ : option Z) (now_local offset : Z)
  : option (Z * Z) :=
  match start, end_ with
  | Some s, Some e => Some (s, e)
  | None, None =>
      let minutes_past_interval := ((now_local / 60) mod 60) mod CRON_INTERVAL_MINUTES in
      let end_time_local := (now_local - now_local mod 60) - minutes_past_interval * 60 in
      let end_time := end_time_local - offset in
      Some (end_time - CRON_INTERVAL_MINUTES * 60, end_time)
  | _, _ => None
  end.

Definition INTERESTED_EVENTS : list string :=
  ["Archive Action Taken"; "Video History Streamed"; "Live Stream Started"].

(** [v in lst] for a list of strings: only an equal string is a member. *)
Definition in_str_list (v : pyval) (lst : list string) : bool :=
  match v with PStr s => existsb (String.eqb s) lst | _ => false end.

(** [for audit_log in audit_logs: if audit_log['event_name'] in
    INTERESTED_EVENTS: print(...)]: the entries printed, and the exception
    that stops the loop, if any. *)
Fixpoint print_interesting (audit_logs : list pyval) : list pyval * option pyexc :=
  match audit_logs with
  | [] => ([], None)
  | a :: rest =>
      match getitem a "event_name" with
      | inr e => ([], Some e)
      | inl v =>
          let (out, err) := print_interesting rest in
          (if in_str_list v INTERESTED_EVENTS then a :: out else out, err)
      end
  end.

(** ** Auxiliary definitions of the proofs *)

(** The last [requests] exception raised among the first [n] calls. *)
Fixpoint last_request_exception (resp : nat -> attempt) (n : nat) : option pyexc :=
  match n with
  | O => None
  | S n' =>
      match resp n' with
      | Raises e => if is_request_exception e then Some e
                    else last_request_exception resp n'
      | Resp _ => last_request_exception resp n'
      end
  end.

(** The statuses that none of the branches of the [try] block handles. *)
Definition unclassified_status (s : Z) : Prop :=
  (100 <= s < 200) \/ (300 <= s < 400).

(** Pagination: the accumulator [data] as a function of its keys. *)
Definition acc_data (keys : list string) (D : string -> list pyval)
  : list (string * list pyval) :=
  map (fun k => (k, D k)) keys.

(** The items a page contributes to field [k], and its continuation token. *)
Definition field_items (k : string) (body : pyval) : list pyval :=
  match getitem body k with inl (PList l) => l | _ => [] end.

Definition page_token (body : pyval) : pyval :=
  match getitem body "next_page_token" with inl t => t | inr _ => PNone end.

(** A page body as the endpoint sends it: a JSON object with a
    [next_page_token] whose truthiness is [more], and a list under each
    requested field. *)
Definition page_ok (keys : list string) (more : bool) (body : pyval) : Prop :=
  exists d tok, body = PDict d /\ dict_get "next_page_token" d = Some tok /\
    truthy tok = more /\
    forall k, In k keys -> exists l, dict_get k d = Some (PList l).

(** The record [_refreshToken] writes and [_readToken] reads back. *)
Definition token_record (t : pyval) (issued : Z) : token_file :=
  FileText (Some (PDict [("token", t); ("timestamp", PInt issued)])).

(** Values that [<] compares with an int. *)
Definition is_number (v : pyval) : bool :=
  match v with PInt _ | PBool _ => true | _ => false end.

(** [n; n-1; ...; 1] *)
Fixpoint countdown (n : nat) : list Z :=
  match n with O => [] | S n' => Z.of_nat n :: countdown n' end.

(** A status that [request] answers with a retry and a growing back-off:
    [>= 500], or [400-499] other than 401, 409 and 429. *)
Definition backoff_status (s : Z) : Prop :=
  500 <= s \/ (400 <= s < 500 /\ s <> 401 /\ s <> 409 /\ s <> 429).

(** An attempt after which [request] stops or uses up one retry: anything
    but a 401, a status below 200 or in 300-399, or a raised
    [VerkadaTokenExpiredError]. *)
Definition progress_attempt (a : attempt) : Prop :=
  match a with
  | Resp s => s <> 401 /\ 200 <= s /\ ~ (300 <= s < 400)
  | Raises e => e <> VerkadaTokenExpiredError
  end.

(** The [event_name] of an audit-log entry ([None] when absent). *)
Definition event_name_of (a : pyval) : pyval :=
  match getitem a "event_name" with inl v => v | inr _ => PNone end.

(** ** Evaluation on small inputs *)

Example request_429_200 :
  request 10 MAX_RETRIES (attempts [Resp 429; Resp 200]) =
  Some (Returned 200, mkReq 2 None 2 [10]).
Proof. reflexivity. Qed.
Example request_500s :
  request 10 MAX_RETRIES (attempts [Resp 500; Resp 500; Resp 500]) =
  Some (Raised (VerkadaConnectionError None), mkReq 0 None 3 [10; 20]).
Proof. reflexivity. Qed.

Example request_all_pages_spec_example :
  request_all_pages 5 ["ids"]
    [CallOk (PDict [("ids", PList [PInt 1; PInt 2]); ("next_page_token", PStr "T")]);
     CallOk (PDict [("ids", PList [PInt 3]); ("next_page_token", PNone)])] =
  Some (PagesDone (mkPages PNone 2 [("ids", [PInt 1; PInt 2; PInt 3])] [PNone; PStr "T"])).
Proof. reflexivity. Qed.

(** ** Auxiliary lemmas *)

Lemma dict_get_not_in {A} (k : string) (l : list (string * A)) :
  ~ In k (map fst l) -> dict_get k l = None.
Proof.
  induction l as [|[k' v'] l IH]; simpl; intros Hn; [reflexivity|].
  destruct (String.eqb_spec k k') as [->|Hne].
  - exfalso; apply Hn; left; reflexivity.
  - apply IH; intros Hin; apply Hn; right; exact Hin.
Qed.

Lemma clean_params_keys (params : list (string * pyval)) (k : string) :
  In k (map fst (clean_params params)) -> In k (map fst params).
Proof.
  unfold clean_params; intros Hin.
  apply in_map_iff in Hin as [[k' v] [Hk Hin]]; simpl in Hk; subst k'.
  apply filter_In in Hin as [Hin _].
  apply in_map_iff; exists (k, v); split; [reflexivity | exact Hin].
Qed.

Lemma clean_params_get (params : list (string * pyval)) (k : string) :
  NoDup (map fst params) ->
  dict_get k (clean_params params) =
  match dict_get k params with
  | Some v => if is_not_None v then Some v else None
  | None => None
  end.
Proof.
  induction params as [|[k' v'] params IH]; simpl; intros Hnd; [reflexivity|].
  inversion Hnd as [|? ? Hnotin Hnd']; subst.
  unfold clean_params in *; simpl.
  destruct (is_not_None v') eqn:Hv; simpl.
  - destruct (String.eqb k k'); [rewrite Hv; reflexivity | apply IH; exact Hnd'].
  - destruct (String.eqb_spec k k') as [->|Hne].
    + rewrite Hv. apply dict_get_not_in. intros Hin.
      apply Hnotin, (clean_params_keys params k' Hin).
    + apply IH; exact Hnd'.
Qed.

Lemma request_step_unclassified (mr : Z) (st : req_state) (s : Z) :
  unclassified_status s ->
  request_step mr st (Resp s) =
  Continue (mkReq (retries st) (last_exception st) (S (calls st)) (sleeps st)).
Proof.
  intros Hs; unfold request_step.
  destruct (200 <=? s) eqn:H1, (s <? 300) eqn:H2,
           (s =? 401) eqn:H3, (s =? 409) eqn:H4, (s =? 429) eqn:H5,
           (500 <=? s) eqn:H6, (400 <=? s) eqn:H7, (s <? 500) eqn:H8;
    simpl; try reflexivity;
    rewrite ?Z.leb_le, ?Z.leb_gt, ?Z.ltb_lt, ?Z.ltb_ge, ?Z.eqb_eq, ?Z.eqb_neq in *;
    unfold unclassified_status in Hs; lia.
Qed.

Lemma last_request_exception_is_request (resp : nat -> attempt) (n : nat) :
  match last_request_exception resp n with
  | Some e => is_request_exception e = true
  | None => True
  end.
Proof.
  induction n as [|n IH]; simpl; [exact I|].
  destruct (resp n) as [s|e]; [exact IH|].
  destruct (is_request_exception e) eqn:He; [exact He | exact IH].
Qed.

Lemma request_step_continue (mr : Z) (st st' : req_state) (a : attempt) :
  request_step mr st a = Continue st' ->
  calls st' = S (calls st) /\
  last_exception st' =
  match a with
  | Raises e => if is_request_exception e then Some e else last_exception st
  | Resp _ => last_exception st
  end.
Proof.
  unfold request_step, backoff; destruct a as [s|e]; simpl.
  - destruct ((200 <=? s) && (s <? 300)); [discriminate|].
    destruct (s =? 401); [intros H; injection H as <-; split; reflexivity|].
    destruct (s =? 409); [discriminate|].
    destruct (s =? 429); [intros H; injection H as <-; split; reflexivity|].
    destruct (500 <=? s); [intros H; injection H as <-; split; reflexivity|].
    destruct ((400 <=? s) && (s <? 500));
      intros H; injection H as <-; split; reflexivity.
  - destruct (is_request_exception e);
      [intros H; injection H as <-; split; reflexivity|].
    destruct e; try discriminate; intros H; injection H as <-; split; reflexivity.
Qed.

Lemma request_step_stop (mr : Z) (st st' : req_state) (a : attempt) (r : req_result) :
  request_step mr st a = Stop r st' ->
  st' = mkReq (retries st) (last_exception st) (S (calls st)) (sleeps st) /\
  ((exists s, a = Resp s /\ r = Returned s /\ 200 <= s < 300) \/
   (exists s, a = Resp s /\ s = 409 /\ r = Raised VerkadaAuthenticationError) \/
   (exists e, a = Raises e /\ r = Raised e /\ is_request_exception e = false /\
              e <> VerkadaTokenExpiredError)).
Proof.
  unfold request_step; destruct a as [s|e]; simpl.
  - destruct ((200 <=? s) && (s <? 300)) eqn:H2xx.
    { intros H; injection H as <- <-; split; [reflexivity|].
      left; exists s; apply andb_true_iff in H2xx as [Ha Hb].
      apply Z.leb_le in Ha; apply Z.ltb_lt in Hb; repeat split; lia. }
    destruct (s =? 401); [discriminate|].
    destruct (s =? 409) eqn:H409.
    { intros H; injection H as <- <-; split; [reflexivity|].
      right; left; exists s; apply Z.eqb_eq in H409; repeat split; lia. }
    destruct (s =? 429); [discriminate|].
    destruct (500 <=? s); [discriminate|].
    destruct ((400 <=? s) && (s <? 500)); discriminate.
  - destruct (is_request_exception e) eqn:Hre; [discriminate|].
    destruct e; try discriminate; intros H; injection H as <- <-;
      (split; [reflexivity|]); right; right; eexists;
      (split; [reflexivity|]); (split; [reflexivity|]); split;
      solve [reflexivity | discriminate | exact Hre].
Qed.

(** What any finished run of the loop satisfies, from a state whose
    [last_exception] is the last [requests] exception seen so far. *)
Lemma request_loop_outcome (fuel : nat) (mr : Z) (resp : nat -> attempt)
    (st st' : req_state) (r : req_result) :
  last_exception st = last_request_exception resp (calls st) ->
  request_loop fuel mr resp st = Some (r, st') ->
  last_exception st' = last_request_exception resp (calls st') /\
  (retries st' <= 0 -> r = Raised (exhausted_error (last_exception st'))) /\
  (forall s, r = Returned s -> 200 <= s < 300) /\
  r <> Raised VerkadaTokenExpiredError.
Proof.
  revert st; induction fuel as [|fuel IH]; intros st Hinv Hrun; simpl in Hrun;
    [discriminate|].
  destruct (0 <? retries st) eqn:Hr.
  - destruct (request_step mr st (resp (calls st))) as [st1|r1 st1] eqn:Hstep.
    + apply (IH st1); [|exact Hrun].
      apply request_step_continue in Hstep as [Hc Hl].
      rewrite Hl, Hc; simpl; rewrite <- Hinv.
      destruct (resp (calls st)); reflexivity.
    + injection Hrun as -> ->.
      apply request_step_stop in Hstep as [-> Hcases]; simpl.
      apply Z.ltb_lt in Hr.
      split; [rewrite Hinv; simpl|].
      { destruct Hcases as [[s [Ha _]]|[[s [Ha _]]|[e [Ha [_ [Hre _]]]]]];
          rewrite Ha; [reflexivity | reflexivity | rewrite Hre; reflexivity]. }
      split; [intros; lia|].
      destruct Hcases as [[s [_ [-> Hs]]]|[[s [_ [_ ->]]]|[e [_ [-> [_ Hne]]]]]].
      * split; [intros s' Hs'; injection Hs' as <-; exact Hs | discriminate].
      * split; [discriminate | discriminate].
      * split; [discriminate | intros He; injection He as He; contradiction].
  - injection Hrun as <- <-.
    split; [exact Hinv|]. split; [reflexivity|]. split; [discriminate|].
    rewrite Hinv.
    pose proof (last_request_exception_is_request resp (calls st)) as Hlr.
    destruct (last_request_exception resp (calls st)) as [e|]; simpl;
      [|discriminate].
    destruct e; simpl in *; discriminate.
Qed.

Lemma acc_data_keys (keys : list string) (D : string -> list pyval) :
  map fst (acc_data keys D) = keys.
Proof. unfold acc_data; rewrite map_map; simpl; apply map_id. Qed.

Lemma acc_data_ext (keys : list string) (D D' : string -> list pyval) :
  (forall k, In k keys -> D k = D' k) -> acc_data keys D = acc_data keys D'.
Proof.
  intros H; unfold acc_data; apply map_ext_in; intros k Hk; rewrite H; auto.
Qed.

Lemma dict_get_acc (keys : list string) (D : string -> list pyval) (k : string) :
  In k keys -> dict_get k (acc_data keys D) = Some (D k).
Proof.
  induction keys as [|a keys IH]; simpl; [contradiction|].
  intros [->|Hin]; [rewrite String.eqb_refl; reflexivity|].
  destruct (String.eqb_spec k a) as [->|_]; [reflexivity | apply IH; exact Hin].
Qed.

Lemma dict_set_acc (keys : list string) (D : string -> list pyval) (k : string)
    (v : list pyval) :
  NoDup keys -> In k keys ->
  dict_set k v (acc_data keys D) =
  acc_data keys (fun k' => if String.eqb k' k then v else D k').
Proof.
  induction keys as [|a keys IH]; simpl; [contradiction|].
  intros Hnd Hin; inversion Hnd as [|? ? Hna Hnd']; subst.
  destruct (String.eqb_spec k a) as [->|Hne].
  - rewrite String.eqb_refl; f_equal.
    apply acc_data_ext; intros k' Hk'.
    destruct (String.eqb_spec k' a) as [->|]; [contradiction | reflexivity].
  - destruct (String.eqb_spec a k) as [->|_]; [contradiction Hne; reflexivity|].
    f_equal; apply IH; [exact Hnd' | destruct Hin as [->|H]; [contradiction Hne; reflexivity | exact H]].
Qed.

Lemma dict_set_absent {A} (k : string) (v : A) (d : list (string * A)) :
  ~ In k (map fst d) -> dict_set k v d = d ++ [(k, v)].
Proof.
  induction d as [|[k' v'] d IH]; simpl; intros Hn; [reflexivity|].
  destruct (String.eqb_spec k k') as [->|_]; [contradiction Hn; left; reflexivity|].
  f_equal; apply IH; intros H; apply Hn; right; exact H.
Qed.

Lemma init_data_acc (keys : list string) :
  NoDup keys -> init_data keys = acc_data keys (fun _ => []).
Proof.
  unfold init_data; intros Hnd.
  assert (Hgen : forall ks pre, NoDup (pre ++ ks) ->
            fold_left (fun d k => dict_set k [] d) ks (acc_data pre (fun _ => [])) =
            acc_data (pre ++ ks) (fun _ => [])).
  { induction ks as [|k ks IH]; intros pre Hnd'; simpl; [rewrite app_nil_r; reflexivity|].
    rewrite dict_set_absent.
    - replace (acc_data pre (fun _ => []) ++ [(k, [])])
        with (acc_data (pre ++ [k]) (fun _ => []))
        by (unfold acc_data; rewrite map_app; reflexivity).
      rewrite IH; [rewrite <- app_assoc; reflexivity|].
      rewrite <- app_assoc; exact Hnd'.
    - rewrite acc_data_keys; intros Hin.
      apply NoDup_remove_2 in Hnd'; apply Hnd'; apply in_or_app; left; exact Hin. }
  apply (Hgen keys []); exact Hnd.
Qed.

Lemma extend_all_acc (keys ks : list string) (body : pyval) (D : string -> list pyval) :
  NoDup keys -> NoDup ks -> incl ks keys ->
  (forall k, In k ks -> exists l, getitem body k = inl (PList l)) ->
  extend_all ks body (acc_data keys D) =
  inl (acc_data keys (fun k => if existsb (String.eqb k) ks
                               then D k ++ field_items k body else D k)).
Proof.
  revert D; induction ks as [|k ks IH]; intros D Hnd Hndks Hincl Hitems; simpl.
  - reflexivity.
  - inversion Hndks as [|? ? Hnk Hndks']; subst.
    destruct (Hitems k (or_introl eq_refl)) as [l Hl].
    rewrite Hl; simpl.
    rewrite (dict_get_acc keys D k (Hincl k (or_introl eq_refl))).
    rewrite (dict_set_acc keys D k _ Hnd (Hincl k (or_introl eq_refl))).
    rewrite IH; [|exact Hnd | exact Hndks' | intros x Hx; apply Hincl; right; exact Hx
                 | intros x Hx; apply Hitems; right; exact Hx].
    f_equal; apply acc_data_ext; intros k' _.
    destruct (String.eqb_spec k' k) as [->|Hne]; simpl.
    + replace (existsb (String.eqb k) ks) with false.
      * unfold field_items; rewrite Hl; reflexivity.
      * symmetry; apply not_true_iff_false; intros Hex.
        apply existsb_exists in Hex as [x [Hx Heq]].
        apply String.eqb_eq in Heq; subst x; contradiction.
    + reflexivity.
Qed.

Lemma extend_all_page (keys : list string) (more : bool) (body : pyval)
    (D : string -> list pyval) :
  NoDup keys -> page_ok keys more body ->
  extend_all keys body (acc_data keys D) =
  inl (acc_data keys (fun k => D k ++ field_items k body)).
Proof.
  intros Hnd [d [tok [-> [_ [_ Hf]]]]].
  rewrite extend_all_acc; [| exact Hnd | exact Hnd | intros x Hx; exact Hx |].
  - f_equal; apply acc_data_ext; intros k Hk.
    replace (existsb (String.eqb k) keys) with true; [reflexivity|].
    symmetry; apply existsb_exists; exists k; split; [exact Hk | apply String.eqb_refl].
  - intros k Hk; destruct (Hf k Hk) as [l Hl]; exists l; simpl; rewrite Hl; reflexivity.
Qed.

Lemma page_ok_token (keys : list string) (more : bool) (body : pyval) :
  page_ok keys more body ->
  getitem body "next_page_token" = inl (page_token body) /\
  truthy (page_token body) = more.
Proof.
  intros [d [tok [-> [Ht [Hm _]]]]]; unfold page_token; simpl; rewrite Ht.
  split; [reflexivity | exact Hm].
Qed.

(** The loop, from any state that will make one more request, over a server
    answering [prefix] (pages with a token) then [last] (without one). *)
Lemma pages_loop_concat (keys : list string) (last : pyval) :
  NoDup keys -> page_ok keys false last ->
  forall prefix fuel tok n D sent,
  Forall (page_ok keys true) prefix ->
  (S (S (List.length prefix)) <= fuel)%nat ->
  truthy tok || Nat.eqb n 0 = true ->
  pages_loop fuel keys (map CallOk (prefix ++ [last])) (mkPages tok n (acc_data keys D) sent) =
  Some (PagesDone (mkPages (page_token last) (S (List.length prefix) + n)
          (acc_data keys (fun k => D k ++ List.concat (map (field_items k) (prefix ++ [last]))))
          (sent ++ tok :: map page_token prefix))).
Proof.
  intros Hnd Hlast.
  induction prefix as [|p prefix IH]; intros fuel tok n D sent Hpre Hfuel Hcond.
  - destruct fuel as [|[|fuel]]; simpl in Hfuel; [lia | lia |].
    destruct (page_ok_token keys false last Hlast) as [Hg Ht].
    simpl; rewrite Hcond, Hg, (extend_all_page keys false last D Hnd Hlast).
    simpl; rewrite Ht; simpl.
    f_equal; f_equal; f_equal.
    apply acc_data_ext; intros k _; rewrite app_nil_r; reflexivity.
  - inversion Hpre as [|? ? Hp Hpre']; subst.
    destruct fuel as [|fuel]; simpl in Hfuel; [lia|].
    destruct (page_ok_token keys true p Hp) as [Hg Ht].
    simpl; rewrite Hcond, Hg, (extend_all_page keys true p D Hnd Hp).
    rewrite (IH fuel (page_token p) (S n) (fun k => D k ++ field_items k p)
               (sent ++ [tok]) Hpre'); [| lia | rewrite Ht; reflexivity].
    f_equal; f_equal; f_equal.
    + lia.
    + apply acc_data_ext; intros k _; simpl; rewrite app_assoc; reflexivity.
    + rewrite <- app_assoc; reflexivity.
Qed.

(** ** Claims *)

(** C9: [clean_params] keeps exactly the entries whose value is not [None],
    with their values unchanged (for a dict, whose keys are distinct); on
    [{start_time: None, end_time: 5, page_size: None}] it gives
    [{end_time: 5}]. *)
Theorem clean_params_exact (params : list (string * pyval)) :
  NoDup (map fst params) ->
  (forall k v, dict_get k (clean_params params) = Some v <->
               dict_get k params = Some v /\ v <> PNone) /\
  clean_params [("start_time", PNone); ("end_time", PInt 5); ("page_size", PNone)]
  = [("end_time", PInt 5)].
Proof.
  intros Hnd; split; [|reflexivity].
  intros k v; rewrite (clean_params_get params k Hnd).
  destruct (dict_get k params) as [w|]; split.
  - destruct (is_not_None w) eqn:Hw; intros H; [|discriminate].
    injection H as <-; split; [reflexivity | intros ->; discriminate Hw].
  - intros [H Hv]; injection H as <-.
    destruct w; [contradiction | reflexivity ..].
  - discriminate.
  - intros [H _]; discriminate.
Qed.

Lemma clean_params_exact_witness :
  NoDup (map fst [("start_time", PNone); ("end_time", PInt 5); ("page_size", PNone)]) /\
  clean_params [("start_time", PNone); ("end_time", PInt 5); ("page_size", PNone)]
  = [("end_time", PInt 5)].
Proof.
  assert (Hnd : NoDup (map fst [("start_time", PNone); ("end_time", PInt 5);
                                ("page_size", PNone)])).
  { simpl; repeat constructor; simpl; intuition discriminate. }
  split; [exact Hnd | exact (proj2 (clean_params_exact _ Hnd))].
Defined.

(** C7: an attempt answered by 409 raises [VerkadaAuthenticationError] at
    once: one more call is made, no sleep is added, [retries] and
    [last_exception] are unchanged, and nothing follows. *)
Theorem request_409_fails_fast (fuel : nat) (mr : Z) (resp : nat -> attempt)
    (st : req_state) :
  0 < retries st ->
  resp (calls st) = Resp 409 ->
  request_loop (S fuel) mr resp st =
  Some (Raised VerkadaAuthenticationError,
        mkReq (retries st) (last_exception st) (S (calls st)) (sleeps st)).
Proof.
  intros Hr H409; simpl.
  apply Z.ltb_lt in Hr; rewrite Hr, H409; reflexivity.
Qed.

Lemma request_409_fails_fast_witness :
  request_loop 1 MAX_RETRIES (attempts [Resp 409]) (req_init MAX_RETRIES) =
  Some (Raised VerkadaAuthenticationError, mkReq 3 None 1 []).
Proof.
  apply (request_409_fails_fast O MAX_RETRIES (attempts [Resp 409])
           (req_init MAX_RETRIES)); reflexivity.
Defined.

(** C8: a 429 followed by a 2xx response returns that response, after one
    sleep of [RETRY_WAIT_TIME] (10 s) and one consumed retry, whenever the
    budget allows a second attempt. *)
Theorem request_429_then_success (fuel : nat) (mr s : Z) :
  (2 <= fuel)%nat -> 2 <= mr -> 200 <= s < 300 ->
  request fuel mr (attempts [Resp 429; Resp s]) =
  Some (Returned s, mkReq (mr - 1) None 2 [RETRY_WAIT_TIME]) /\
  RETRY_WAIT_TIME = 10.
Proof.
  intros Hf Hmr Hs; split; [|reflexivity].
  destruct fuel as [|[|fuel]]; [lia | lia |].
  unfold request, req_init; simpl.
  replace (0 <? mr) with true by (symmetry; apply Z.ltb_lt; lia).
  replace (0 <? mr - 1) with true by (symmetry; apply Z.ltb_lt; lia).
  replace ((200 <=? s) && (s <? 300)) with true
    by (symmetry; apply andb_true_iff; rewrite Z.leb_le, Z.ltb_lt; lia).
  reflexivity.
Qed.

Lemma request_429_then_success_witness :
  request 2 MAX_RETRIES (attempts [Resp 429; Resp 200]) =
  Some (Returned 200, mkReq 2 None 2 [RETRY_WAIT_TIME]) /\ RETRY_WAIT_TIME = 10.
Proof.
  apply (request_429_then_success 2 MAX_RETRIES 200); unfold MAX_RETRIES; lia.
Defined.

(** C10: an attempt whose status is in 100-199 or 300-399 neither returns,
    raises, sleeps nor touches [retries]; if every attempt has such a status,
    [request] runs out of any fuel. *)
Theorem request_unclassified_loops (mr : Z) (resp : nat -> attempt) :
  0 < mr ->
  (forall n, exists s, resp n = Resp s /\ unclassified_status s) ->
  (forall st, request_step mr st (resp (calls st)) =
              Continue (mkReq (retries st) (last_exception st) (S (calls st))
                              (sleeps st))) /\
  (forall fuel, request fuel mr resp = None).
Proof.
  intros Hmr Hall.
  assert (Hstep : forall st, request_step mr st (resp (calls st)) =
            Continue (mkReq (retries st) (last_exception st) (S (calls st))
                            (sleeps st))).
  { intros st; destruct (Hall (calls st)) as [s [-> Hs]].
    apply request_step_unclassified; exact Hs. }
  split; [exact Hstep|].
  intros fuel; unfold request.
  assert (Hgen : forall fuel st, 0 < retries st -> request_loop fuel mr resp st = None).
  { induction fuel0 as [|f IH]; intros st Hr; simpl; [reflexivity|].
    replace (0 <? retries st) with true by (symmetry; apply Z.ltb_lt; exact Hr).
    rewrite Hstep; apply IH; simpl; exact Hr. }
  apply Hgen; simpl; exact Hmr.
Qed.

Lemma request_unclassified_loops_witness :
  request 100%nat MAX_RETRIES (fun _ => Resp 302) = None.
Proof.
  refine (proj2 (request_unclassified_loops MAX_RETRIES (fun _ => Resp 302) _ _) 100%nat).
  - reflexivity.
  - intros n; exists 302; split; [reflexivity | right; lia].
Defined.

(** C2 (defect): a 401 is not propagated. The [VerkadaTokenExpiredError]
    raised for it is caught by [request]'s own [except] clause, which only
    logs, so the loop retries the same request without consuming a retry:
    a 401 followed by a 200 returns the 200, and no run of [request] ever
    raises [VerkadaTokenExpiredError] to its caller. *)
Theorem request_401_not_propagated :
  request 10 MAX_RETRIES (attempts [Resp 401; Resp 200]) =
  Some (Returned 200, mkReq MAX_RETRIES None 2 []) /\
  (forall fuel mr resp st, request fuel mr resp <> Some (Raised VerkadaTokenExpiredError, st)).
Proof.
  split; [reflexivity|].
  intros fuel mr resp st Hrun.
  apply (request_loop_outcome fuel mr resp (req_init mr) st) in Hrun;
    [|reflexivity].
  destruct Hrun as [_ [_ [_ Hne]]]; apply Hne; reflexivity.
Qed.

(** C3 (as the code does it): [request] never returns anything but a 2xx
    response, and when it stops with its budget spent it raises the error
    chosen from the last [requests] exception raised in any attempt (status
    failures neither record nor clear it): a [ConnectionError] or [Timeout]
    gives [VerkadaConnectionError], another [RequestException] is re-raised,
    and none at all gives the generic [VerkadaConnectionError]. *)
Theorem request_exhausted_error (fuel : nat) (mr : Z) (resp : nat -> attempt)
    (r : req_result) (st : req_state) :
  request fuel mr resp = Some (r, st) ->
  (forall s, r = Returned s -> 200 <= s < 300) /\
  (retries st <= 0 ->
   r = Raised (exhausted_error (last_request_exception resp (calls st)))).
Proof.
  intros Hrun.
  apply (request_loop_outcome fuel mr resp (req_init mr) st r) in Hrun;
    [|reflexivity].
  destruct Hrun as [Hl [Hex [Hok _]]].
  split; [exact Hok|].
  intros Hr; rewrite <- Hl; apply Hex; exact Hr.
Qed.

Lemma request_exhausted_error_witness :
  request 10 MAX_RETRIES (attempts [Raises ConnectionError; Resp 500; Resp 500]) =
  Some (Raised (VerkadaConnectionError (Some ConnectionError)),
        mkReq 0 (Some ConnectionError) 3 [10; 20]) /\
  Raised (VerkadaConnectionError (Some ConnectionError)) =
  Raised (exhausted_error (last_request_exception
            (attempts [Raises ConnectionError; Resp 500; Resp 500]) 3)).
Proof.
  split; [reflexivity|].
  apply (proj2 (request_exhausted_error 10 MAX_RETRIES
                  (attempts [Raises ConnectionError; Resp 500; Resp 500])
                  (Raised (VerkadaConnectionError (Some ConnectionError)))
                  (mkReq 0 (Some ConnectionError) 3 [10; 20]) eq_refl)).
  simpl; lia.
Defined.

(** C3, as stated, fails: after a connection error and two 500s the last
    observed failure is a 500, not a transport failure, and the last error
    raised is the [ConnectionError]; yet [request] does not re-raise it but
    raises [VerkadaConnectionError]. *)
Lemma request_exhausted_error_counterexample :
  let resp := attempts [Raises ConnectionError; Resp 500; Resp 500] in
  exists st,
    request 10 MAX_RETRIES resp =
    Some (Raised (VerkadaConnectionError (Some ConnectionError)), st) /\
    retries st <= 0 /\
    resp (pred (calls st)) = Resp 500 /\
    last_request_exception resp (calls st) = Some ConnectionError /\
    Raised (VerkadaConnectionError (Some ConnectionError)) <> Raised ConnectionError.
Proof.
  simpl; eexists; split; [reflexivity|].
  simpl; split; [lia|]; split; [reflexivity|]; split; [reflexivity | discriminate].
Qed.

(** C5 (as the code does it): [_readToken] treats the stored token as
    expired exactly when [issuedAt < now - 25*60], i.e. when more than 25
    minutes (1500 s) have passed; at exactly 1500 s it is still used. At
    [now - 26*60] it is expired, at [now - 24*60] it is not. *)
Theorem read_token_expiry (now issued : Z) (t : pyval) (post : call_result)
    (st : api_state) :
  token_expired now (PInt issued) = inl (1500 <? now - issued) /\
  read_token now post (mkApi (token st) (timestamp st) (token_record t issued)) =
  (if 1500 <? now - issued
   then refresh_token now post (mkApi t (PInt issued) (token_record t issued))
   else inl (mkApi t (PInt issued) (token_record t issued))) /\
  token_expired now (PInt (now - 26 * 60)) = inl true /\
  token_expired now (PInt (now - 24 * 60)) = inl false.
Proof.
  assert (He : forall i, token_expired now (PInt i) = inl (1500 <? now - i)).
  { intros i; unfold token_expired, py_lt_int, DEFAULT_TOKEN_EXPIRATION_TIME.
    f_equal; destruct (Z.ltb_spec i (now - 25 * 60)), (Z.ltb_spec 1500 (now - i));
      reflexivity || lia. }
  split; [apply He|]. split.
  - unfold read_token, token_record; cbn -[token_expired refresh_token].
    rewrite He. destruct (1500 <? now - issued); reflexivity.
  - rewrite !He; split; f_equal; [apply Z.ltb_lt | apply Z.ltb_ge]; lia.
Qed.

(** C5, as stated, fails at the boundary: a token issued exactly 25 minutes
    ago is not treated as expired by [_readToken], which keeps it. *)
Lemma read_token_expiry_counterexample :
  token_expired 1500 (PInt 0) = inl false /\
  read_token 1500 (CallRaise ConnectionError)
    (mkApi PNone PNone (token_record (PStr "t") 0)) =
  inl (mkApi (PStr "t") (PInt 0) (token_record (PStr "t") 0)) /\
  ~ (1500 - 0 < 25 * 60).
Proof. split; [reflexivity|]. split; [reflexivity | lia]. Qed.

(** C6 (as the code does it): when the token endpoint answers with a body
    that has no [token] field, [_refreshToken] raises [KeyError('token')]
    from [res.json()['token']], not [VerkadaAuthenticationError], and writes
    nothing. *)
Theorem refresh_token_missing_field (now : Z) (d : list (string * pyval))
    (st : api_state) :
  dict_get "token" d = None ->
  refresh_token now (CallOk (PDict d)) st = inr (KeyError "token").
Proof. intros Hd; unfold refresh_token, getitem; rewrite Hd; reflexivity. Qed.

Lemma refresh_token_missing_field_witness :
  refresh_token 0 (CallOk (PDict [("expires", PInt 1800)]))
    (mkApi PNone PNone FileAbsent) = inr (KeyError "token").
Proof. apply refresh_token_missing_field; reflexivity. Defined.

(** C6, as stated, fails: the error is a [KeyError], not an authentication
    error. *)
Lemma refresh_token_missing_field_counterexample :
  refresh_token 0 (CallOk (PDict [])) (mkApi PNone PNone FileAbsent) =
  inr (KeyError "token") /\
  inr (KeyError "token") <> (inr VerkadaAuthenticationError : api_state + pyexc).
Proof. split; [reflexivity | discriminate]. Qed.

(** C4 (as the code does it): [_readToken] does not fail soft. An absent
    [token.json] makes it request a new token (whose errors propagate); a
    file that is not JSON raises the decode error; JSON that is not an object
    raises [AttributeError]; a missing or non-numeric [timestamp] raises
    [TypeError]. Only a missing [token] next to a fresh [timestamp] leaves
    [self.token] as [None] without raising. *)
Theorem read_token_not_fail_soft (now : Z) (post : call_result) (st : api_state) :
  (file st = FileAbsent -> read_token now post st = refresh_token now post st) /\
  (file st = FileText None -> read_token now post st = inr JSONDecodeError) /\
  (forall v, file st = FileText (Some v) -> (forall d, v <> PDict d) ->
     read_token now post st = inr AttributeError) /\
  (forall d, file st = FileText (Some (PDict d)) ->
     is_number (dict_get_or_None "timestamp" d) = false ->
     read_token now post st = inr TypeError) /\
  (forall d i, file st = FileText (Some (PDict d)) ->
     dict_get "token" d = None -> dict_get "timestamp" d = Some (PInt i) ->
     now - i <= 1500 ->
     read_token now post st = inl (mkApi PNone (PInt i) (file st))).
Proof.
  unfold read_token.
  split; [intros ->; reflexivity|].
  split; [intros ->; reflexivity|].
  split.
  { intros v Hf Hnd; rewrite Hf.
    destruct v; try reflexivity; exfalso; eapply Hnd; reflexivity. }
  split.
  { intros d Hf Hn; rewrite Hf; simpl.
    unfold token_expired, py_lt_int.
    destruct (dict_get_or_None "timestamp" d); try reflexivity; discriminate. }
  intros d i Hf Ht Hts Hi; rewrite Hf; simpl.
  unfold dict_get_or_None; rewrite Ht, Hts.
  unfold token_expired, py_lt_int, DEFAULT_TOKEN_EXPIRATION_TIME.
  replace (i <? now - 25 * 60) with false by (symmetry; apply Z.ltb_ge; lia).
  reflexivity.
Qed.

(** C4, as stated, fails: a [token.json] that is not JSON, or one without a
    [timestamp], makes [_readToken] raise. *)
Lemma read_token_not_fail_soft_counterexample :
  read_token 0 (CallRaise ConnectionError) (mkApi PNone PNone (FileText None)) =
  inr JSONDecodeError /\
  read_token 0 (CallRaise ConnectionError)
    (mkApi PNone PNone (FileText (Some (PDict [("token", PStr "t")])))) =
  inr TypeError.
Proof. split; reflexivity. Qed.

(** C1: for a server whose pages all carry each requested field as a list,
    every page but the last a non-empty [next_page_token] and the last an
    empty or null one, [request_all_pages] makes one request per page (at
    least one, the first with [page_token = None], each later one with the
    previous page's token) and returns, for each requested field (a set of
    distinct names), the concatenation in page order of the pages' lists. *)
Theorem request_all_pages_concat (keys : list string) (prefix : list pyval)
    (last : pyval) (fuel : nat) :
  NoDup keys ->
  Forall (page_ok keys true) prefix ->
  page_ok keys false last ->
  (S (S (List.length prefix)) <= fuel)%nat ->
  request_all_pages fuel keys (map CallOk (prefix ++ [last])) =
  Some (PagesDone (mkPages (page_token last) (S (List.length prefix))
          (map (fun k => (k, List.concat (map (field_items k) (prefix ++ [last])))) keys)
          (PNone :: map page_token prefix))).
Proof.
  intros Hnd Hpre Hlast Hfuel; unfold request_all_pages.
  rewrite (init_data_acc keys Hnd).
  rewrite (pages_loop_concat keys last Hnd Hlast prefix fuel PNone O
             (fun _ => []) [] Hpre Hfuel eq_refl).
  rewrite Nat.add_0_r; reflexivity.
Qed.

Lemma request_all_pages_concat_witness :
  request_all_pages 3 ["ids"]
    (map CallOk ([PDict [("ids", PList [PInt 1; PInt 2]); ("next_page_token", PStr "T")]] ++
                 [PDict [("ids", PList [PInt 3]); ("next_page_token", PNone)]])) =
  Some (PagesDone (mkPages PNone 2 [("ids", [PInt 1; PInt 2; PInt 3])] [PNone; PStr "T"])).
Proof.
  apply (request_all_pages_concat ["ids"]
           [PDict [("ids", PList [PInt 1; PInt 2]); ("next_page_token", PStr "T")]]
           (PDict [("ids", PList [PInt 3]); ("next_page_token", PNone)]) 3).
  - repeat constructor; simpl; tauto.
  - repeat constructor.
    eexists; eexists; split; [reflexivity|]; split; [reflexivity|]; split; [reflexivity|].
    intros k [<-|[]]; eexists; reflexivity.
  - eexists; eexists; split; [reflexivity|]; split; [reflexivity|]; split; [reflexivity|].
    intros k [<-|[]]; eexists; reflexivity.
  - simpl; lia.
Defined.

(** ** Further properties of the code *)

Lemma read_token_record_eq (now issued : Z) (t : pyval) (post : call_result)
    (st : api_state) :
  read_token now post (mkApi (token st) (timestamp st) (token_record t issued)) =
  if 1500 <? now - issued
  then refresh_token now post (mkApi t (PInt issued) (token_record t issued))
  else inl (mkApi t (PInt issued) (token_record t issued)).
Proof.
  unfold read_token, token_record; cbn -[token_expired refresh_token].
  unfold token_expired, py_lt_int, DEFAULT_TOKEN_EXPIRATION_TIME.
  destruct (Z.ltb_spec issued (now - 25 * 60)), (Z.ltb_spec 1500 (now - issued));
    reflexivity || lia.
Qed.

Lemma request_step_backoff (mr : Z) (st : req_state) (s : Z) :
  backoff_status s ->
  request_step mr st (Resp s) =
  Continue (backoff mr (mkReq (retries st) (last_exception st) (S (calls st)) (sleeps st))).
Proof.
  intros Hs; unfold request_step, backoff_status in *.
  destruct ((200 <=? s) && (s <? 300)) eqn:H1.
  { apply andb_true_iff in H1 as [Ha Hb]; apply Z.leb_le in Ha; apply Z.ltb_lt in Hb; lia. }
  destruct (s =? 401) eqn:H2; [apply Z.eqb_eq in H2; lia|].
  destruct (s =? 409) eqn:H3; [apply Z.eqb_eq in H3; lia|].
  destruct (s =? 429) eqn:H4; [apply Z.eqb_eq in H4; lia|].
  destruct (500 <=? s) eqn:H5; [reflexivity|].
  apply Z.leb_gt in H5.
  replace ((400 <=? s) && (s <? 500)) with true
    by (symmetry; apply andb_true_iff; rewrite Z.leb_le, Z.ltb_lt; lia).
  reflexivity.
Qed.

Lemma request_loop_S (fuel : nat) (mr : Z) (resp : nat -> attempt) (st : req_state) :
  request_loop (S fuel) mr resp st =
  if 0 <? retries st then
    match request_step mr st (resp (calls st)) with
    | Continue st' => request_loop fuel mr resp st'
    | Stop r st' => Some (r, st')
    end
  else Some (Raised (exhausted_error (last_exception st)), st).
Proof. reflexivity. Qed.

Lemma request_loop_backoff_all (mr : Z) (resp : nat -> attempt) :
  (forall i, exists s, resp i = Resp s /\ backoff_status s) ->
  forall k st, retries st = Z.of_nat k ->
  request_loop (S k) mr resp st =
  Some (Raised (exhausted_error (last_exception st)),
        mkReq 0 (last_exception st) (k + calls st)
          (sleeps st ++ map (fun j => (mr - j) * RETRY_WAIT_TIME) (countdown (pred k)))).
Proof.
  intros Hall; induction k as [|k IH]; intros st Hr.
  - simpl; rewrite Hr; simpl; rewrite app_nil_r.
    destruct st as [r l c sl]; simpl in *; subst r; reflexivity.
  - rewrite request_loop_S.
    replace (0 <? retries st) with true by (symmetry; apply Z.ltb_lt; lia).
    destruct (Hall (calls st)) as [s [-> Hs]].
    rewrite (request_step_backoff mr st s Hs); cbv iota.
    rewrite IH by (simpl; lia); simpl.
    replace (Z.of_nat (S k) - 1) with (Z.of_nat k) by lia.
    f_equal; f_equal; f_equal; [lia|].
    rewrite Hr; replace (Z.of_nat (S k) - 1) with (Z.of_nat k) by lia.
    destruct k as [|k]; [reflexivity|].
    replace (0 <? Z.of_nat (S k)) with true by (symmetry; apply Z.ltb_lt; lia).
    rewrite <- app_assoc; reflexivity.
Qed.

Lemma countdown_schedule (n m : nat) :
  (m <= n)%nat ->
  map (fun j => (Z.of_nat n - j) * RETRY_WAIT_TIME) (countdown m) =
  map (fun i => Z.of_nat i * RETRY_WAIT_TIME) (seq (n - m) m).
Proof.
  induction m as [|m IH]; intros Hm; [reflexivity|].
  cbn [countdown map seq]; rewrite IH by lia.
  replace (S (n - S m)) with (n - m)%nat by lia.
  f_equal; f_equal; lia.
Qed.

(** When every attempt answers a status that is retried with back-off
    ([>= 500], or a 4xx other than 401, 409, 429), [request] with a budget
    of [n >= 1] makes exactly [n] calls, sleeps [10, 20, ..., (n-1)*10]
    seconds between them (not after the last one) and raises the generic
    [VerkadaConnectionError]. *)
Theorem request_backoff_schedule (n : nat) (resp : nat -> attempt) :
  (1 <= n)%nat ->
  (forall i, exists s, resp i = Resp s /\ backoff_status s) ->
  request (S n) (Z.of_nat n) resp =
  Some (Raised (VerkadaConnectionError None),
        mkReq 0 None n (map (fun i => Z.of_nat i * RETRY_WAIT_TIME) (seq 1 (n - 1)))).
Proof.
  intros Hn Hall; unfold request.
  rewrite (request_loop_backoff_all (Z.of_nat n) resp Hall n (req_init (Z.of_nat n)) eq_refl).
  simpl; rewrite Nat.add_0_r.
  rewrite countdown_schedule by lia.
  replace (n - pred n)%nat with 1%nat by lia; replace (pred n) with (n - 1)%nat by lia.
  reflexivity.
Qed.

Lemma request_backoff_schedule_witness :
  request 4 3 (fun _ => Resp 503) =
  Some (Raised (VerkadaConnectionError None), mkReq 0 None 3 [10; 20]).
Proof.
  apply (request_backoff_schedule 3 (fun _ => Resp 503)); [lia|].
  intros i; exists 503; split; [reflexivity | left; lia].
Defined.

Lemma request_step_429 (mr : Z) (st : req_state) :
  request_step mr st (Resp 429) =
  Continue (mkReq (retries st - 1) (last_exception st) (S (calls st))
                  (sleeps st ++ [RETRY_WAIT_TIME])).
Proof. reflexivity. Qed.

Lemma request_loop_429_all (mr : Z) :
  forall k st, retries st = Z.of_nat k ->
  request_loop (S k) mr (fun _ => Resp 429) st =
  Some (Raised (exhausted_error (last_exception st)),
        mkReq 0 (last_exception st) (k + calls st)
          (sleeps st ++ repeat RETRY_WAIT_TIME k)).
Proof.
  induction k as [|k IH]; intros st Hr.
  - rewrite request_loop_S, Hr; simpl; rewrite app_nil_r.
    destruct st as [r l c sl]; simpl in *; subst r; reflexivity.
  - rewrite request_loop_S.
    replace (0 <? retries st) with true by (symmetry; apply Z.ltb_lt; lia).
    rewrite request_step_429; cbv iota.
    rewrite IH by (simpl; lia); simpl.
    rewrite <- app_assoc, Nat.add_succ_r; reflexivity.
Qed.

(** When every attempt answers 429, [request] with a budget of [n] makes
    [n] calls, sleeps [RETRY_WAIT_TIME] (10 s) after each of them, the last
    one included, and then raises the generic [VerkadaConnectionError]. *)
Theorem request_rate_limited_schedule (n : nat) :
  request (S n) (Z.of_nat n) (fun _ => Resp 429) =
  Some (Raised (VerkadaConnectionError None),
        mkReq 0 None n (repeat RETRY_WAIT_TIME n)) /\ RETRY_WAIT_TIME = 10.
Proof.
  split; [|reflexivity]; unfold request.
  rewrite (request_loop_429_all (Z.of_nat n) n (req_init (Z.of_nat n)) eq_refl).
  simpl; rewrite Nat.add_0_r; reflexivity.
Qed.

Lemma request_step_progress (mr : Z) (st : req_state) (a : attempt) :
  progress_attempt a ->
  (exists r st', request_step mr st a = Stop r st' /\ calls st' = S (calls st)) \/
  (exists st', request_step mr st a = Continue st' /\
               retries st' = retries st - 1 /\ calls st' = S (calls st)).
Proof.
  unfold request_step, backoff; destruct a as [s|e]; simpl; intros Hp.
  - destruct ((200 <=? s) && (s <? 300)) eqn:H1; [left; do 2 eexists; split; reflexivity|].
    destruct (s =? 401) eqn:H2; [apply Z.eqb_eq in H2; lia|].
    destruct (s =? 409) eqn:H3; [left; do 2 eexists; split; reflexivity|].
    destruct (s =? 429) eqn:H4; [right; eexists; split; [reflexivity | split; reflexivity]|].
    destruct (500 <=? s) eqn:H5; [right; eexists; split; [reflexivity | split; reflexivity]|].
    destruct ((400 <=? s) && (s <? 500)) eqn:H6;
      [right; eexists; split; [reflexivity | split; reflexivity]|].
    exfalso.
    rewrite andb_false_iff, Z.leb_gt, Z.ltb_ge in H1, H6.
    apply Z.leb_gt in H5; lia.
  - destruct (is_request_exception e);
      [right; eexists; split; [reflexivity | split; reflexivity]|].
    destruct e; try (left; do 2 eexists; split; reflexivity).
    contradiction Hp; reflexivity.
Qed.

Lemma request_loop_progress_bound (mr : Z) (resp : nat -> attempt) :
  (forall i, progress_attempt (resp i)) ->
  forall k st, retries st <= Z.of_nat k ->
  exists r st', request_loop (S k) mr resp st = Some (r, st') /\
                (calls st' <= k + calls st)%nat.
Proof.
  intros Hall; induction k as [|k IH]; intros st Hr; rewrite request_loop_S.
  - replace (0 <? retries st) with false by (symmetry; apply Z.ltb_ge; lia).
    do 2 eexists; split; [reflexivity | simpl; lia].
  - destruct (0 <? retries st) eqn:Hpos; [|do 2 eexists; split; [reflexivity | lia]].
    destruct (request_step_progress mr st (resp (calls st)) (Hall _))
      as [[r [st' [Hs Hc]]]|[st' [Hs [Hr' Hc]]]]; rewrite Hs.
    + do 2 eexists; split; [reflexivity | lia].
    + destruct (IH st') as [r [st'' [Hrun Hc']]]; [lia|].
      do 2 eexists; split; [exact Hrun | lia].
Qed.

(** If no attempt answers 401, a status below 200 or in 300-399 (the ones
    [request] retries without counting), [request] with a budget of [n]
    finishes within [n + 1] loop iterations and makes at most [n] calls. *)
Theorem request_terminates_within_budget (n : nat) (resp : nat -> attempt) :
  (forall i, progress_attempt (resp i)) ->
  exists r st, request (S n) (Z.of_nat n) resp = Some (r, st) /\ (calls st <= n)%nat.
Proof.
  intros Hall; unfold request.
  destruct (request_loop_progress_bound (Z.of_nat n) resp Hall n (req_init (Z.of_nat n)))
    as [r [st [Hrun Hc]]]; [simpl; lia|].
  exists r, st; split; [exact Hrun | simpl in Hc; lia].
Qed.

Lemma request_terminates_within_budget_witness :
  exists r st, request 4 3 (attempts [Resp 500; Raises Timeout; Resp 404]) = Some (r, st) /\
               (calls st <= 3)%nat.
Proof.
  apply (request_terminates_within_budget 3); intros i.
  destruct i as [|[|[|i]]]; simpl; [lia | discriminate | lia |].
  destruct i; simpl; lia.
Defined.

Lemma pages_loop_prefix (keys : list string) :
  NoDup keys ->
  forall prefix fuel tok n D sent rest,
  Forall (page_ok keys true) prefix ->
  truthy tok || Nat.eqb n 0 = true ->
  exists tok' n' D' sent',
    truthy tok' || Nat.eqb n' 0 = true /\
    pages_loop (List.length prefix + fuel) keys (map CallOk prefix ++ rest)
      (mkPages tok n (acc_data keys D) sent) =
    pages_loop fuel keys rest (mkPages tok' n' (acc_data keys D') sent').
Proof.
  intros Hnd; induction prefix as [|p prefix IH];
    intros fuel tok n D sent rest Hpre Hcond.
  - exists tok, n, D, sent; split; [exact Hcond | reflexivity].
  - inversion Hpre as [|? ? Hp Hpre']; subst.
    destruct (page_ok_token keys true p Hp) as [Hg Ht].
    simpl; rewrite Hcond, Hg, (extend_all_page keys true p D Hnd Hp).
    apply IH; [exact Hpre' | rewrite Ht; reflexivity].
Qed.

(** [request_all_pages] returns no partial result: after any number of
    good pages, a request that raises makes the whole call raise the same
    exception, and a page without [next_page_token] makes it raise
    [KeyError('next_page_token')]. *)
Theorem request_all_pages_no_partial_result (keys : list string)
    (prefix : list pyval) (rest : list call_result) (fuel : nat) :
  NoDup keys ->
  Forall (page_ok keys true) prefix ->
  (S (List.length prefix) <= fuel)%nat ->
  (forall e, request_all_pages fuel keys (map CallOk prefix ++ CallRaise e :: rest) =
             Some (PagesRaised e)) /\
  (forall d, dict_get "next_page_token" d = None ->
             request_all_pages fuel keys (map CallOk prefix ++ CallOk (PDict d) :: rest) =
             Some (PagesRaised (KeyError "next_page_token"))).
Proof.
  intros Hnd Hpre Hf.
  replace fuel with (List.length prefix + S (fuel - S (List.length prefix)))%nat by lia.
  unfold request_all_pages; rewrite (init_data_acc keys Hnd).
  split.
  - intros e.
    destruct (pages_loop_prefix keys Hnd prefix (S (fuel - S (List.length prefix)))
                PNone O (fun _ => []) [] (CallRaise e :: rest) Hpre eq_refl)
      as [tok [n [D [sent [Hc ->]]]]].
    simpl; rewrite Hc; reflexivity.
  - intros d Hd.
    destruct (pages_loop_prefix keys Hnd prefix (S (fuel - S (List.length prefix)))
                PNone O (fun _ => []) [] (CallOk (PDict d) :: rest) Hpre eq_refl)
      as [tok [n [D [sent [Hc ->]]]]].
    simpl; rewrite Hc, Hd; reflexivity.
Qed.

Lemma request_all_pages_no_partial_result_witness :
  request_all_pages 3 ["ids"]
    (map CallOk [PDict [("ids", PList [PInt 1]); ("next_page_token", PStr "T")]] ++
     [CallRaise Timeout]) = Some (PagesRaised Timeout).
Proof.
  assert (Hp : Forall (page_ok ["ids"] true)
                 [PDict [("ids", PList [PInt 1]); ("next_page_token", PStr "T")]]).
  { repeat constructor.
    eexists; eexists; split; [reflexivity|]; split; [reflexivity|]; split; [reflexivity|].
    intros k [<-|[]]; eexists; reflexivity. }
  apply (proj1 (request_all_pages_no_partial_result ["ids"]
     [PDict [("ids", PList [PInt 1]); ("next_page_token", PStr "T")]] [] 3
     ltac:(repeat constructor; simpl; tauto) Hp ltac:(simpl; lia))).
Defined.

(** [request_all_pages] does not stop while the pages carry a non-empty
    [next_page_token]: after pages that all have one, it asks for yet another
    page (the modelled server, having none, is asked once more). *)
Theorem request_all_pages_follows_tokens (keys : list string) (pages : list pyval)
    (fuel : nat) :
  NoDup keys ->
  Forall (page_ok keys true) pages ->
  (S (List.length pages) <= fuel)%nat ->
  request_all_pages fuel keys (map CallOk pages) = Some PagesNoResponse.
Proof.
  intros Hnd Hpre Hf.
  replace fuel with (List.length pages + S (fuel - S (List.length pages)))%nat by lia.
  unfold request_all_pages; rewrite (init_data_acc keys Hnd).
  rewrite <- (app_nil_r (map CallOk pages)).
  destruct (pages_loop_prefix keys Hnd pages (S (fuel - S (List.length pages)))
              PNone O (fun _ => []) [] [] Hpre eq_refl)
    as [tok [n [D [sent [Hc ->]]]]].
  simpl; rewrite Hc; reflexivity.
Qed.

Lemma request_all_pages_follows_tokens_witness :
  request_all_pages 10 ["ids"]
    (map CallOk [PDict [("ids", PList []); ("next_page_token", PStr "A")];
                 PDict [("ids", PList [PInt 7]); ("next_page_token", PStr "B")]]) =
  Some PagesNoResponse.
Proof.
  apply request_all_pages_follows_tokens;
    [repeat constructor; simpl; tauto | | simpl; lia].
  repeat constructor;
    (eexists; eexists; split; [reflexivity|]; split; [reflexivity|]; split; [reflexivity|];
     intros k [<-|[]]; eexists; reflexivity).
Defined.

(** The token [_refreshToken] stores is read back by [_readToken]: within
    25 minutes of the refresh the read returns the same token and timestamp
    and makes no request; later it refreshes. *)
Theorem refresh_then_read_token (now now' : Z) (post post' : call_result)
    (st st' : api_state) :
  refresh_token now post st = inl st' ->
  read_token now' post' st' =
  if 1500 <? now' - now then refresh_token now' post' st' else inl st'.
Proof.
  unfold refresh_token; destruct post as [body|e]; [|discriminate].
  destruct (getitem body "token") as [tok|e]; [|discriminate].
  intros H; injection H as <-.
  unfold read_token; cbn -[token_expired refresh_token].
  pose proof (read_token_record_eq now' now tok post' st) as He.
  unfold read_token, token_record in He; cbn -[token_expired refresh_token] in He.
  exact He.
Qed.

Lemma refresh_then_read_token_witness :
  read_token 1000 (CallRaise Timeout)
    (mkApi (PStr "abc") (PInt 0) (token_record (PStr "abc") 0)) =
  inl (mkApi (PStr "abc") (PInt 0) (token_record (PStr "abc") 0)).
Proof.
  apply (refresh_then_read_token 0 1000 (CallOk (PDict [("token", PStr "abc")]))
           (CallRaise Timeout) (mkApi PNone PNone FileAbsent)).
  reflexivity.
Defined.

(** Without an API key (argument and environment variable both unset or
    empty), [VerkadaAPI()] returns at once: no token, no file read, no
    request, whatever the file holds. *)
Theorem api_init_no_key (api_key env : pyval) (f : token_file) (now : Z)
    (p1 p2 p3 : call_result) :
  truthy api_key = false -> truthy env = false ->
  api_init api_key env f now p1 p2 p3 = inl (mkObj PNone (mkApi PNone PNone f)).
Proof. intros Hk He; unfold api_init; rewrite Hk, He; reflexivity. Qed.

Lemma api_init_no_key_witness :
  api_init (PStr "") PNone FileAbsent 0 (CallRaise Timeout) (CallRaise Timeout)
    (CallRaise Timeout) = inl (mkObj PNone (mkApi PNone PNone FileAbsent)).
Proof. apply api_init_no_key; reflexivity. Defined.

(** With an API key and a cached token that is non-empty and at most 25
    minutes old, [VerkadaAPI()] keeps the cached token and timestamp and
    makes no request: the result is the same whatever the POSTs would
    answer. The explicit key takes precedence over the environment. *)
Theorem api_init_cached_token (api_key env tok : pyval) (issued now : Z)
    (p1 p2 p3 : call_result) :
  truthy api_key || truthy env = true ->
  truthy tok = true -> now - issued <= 1500 ->
  api_init api_key env (token_record tok issued) now p1 p2 p3 =
  inl (mkObj (py_or api_key env) (mkApi tok (PInt issued) (token_record tok issued))).
Proof.
  intros Hk Ht Hi; unfold api_init.
  replace (negb (truthy api_key) && negb (truthy env)) with false
    by (destruct (truthy api_key), (truthy env); simpl in *; congruence).
  pose proof (read_token_record_eq now issued tok p1 (mkApi PNone PNone FileAbsent))
    as Hr; cbn [token timestamp] in Hr; rewrite Hr.
  replace (1500 <? now - issued) with false by (symmetry; apply Z.ltb_ge; lia).
  cbn [token]; rewrite Ht; reflexivity.
Qed.

Lemma api_init_cached_token_witness :
  api_init PNone (PStr "key") (token_record (PStr "tk") 100) 700
    (CallRaise Timeout) (CallRaise Timeout) (CallRaise Timeout) =
  inl (mkObj (PStr "key") (mkApi (PStr "tk") (PInt 100) (token_record (PStr "tk") 100))).
Proof. apply api_init_cached_token; [reflexivity | reflexivity | lia]. Defined.

(** With an API key and no [token.json], [VerkadaAPI()] requests a token
    once: if the answer holds a non-empty [token] it stores it with the
    current time in [token.json] and makes no second request. *)
Theorem api_init_fresh_token (api_key env tok : pyval) (d : list (string * pyval))
    (now : Z) (p2 p3 : call_result) :
  truthy api_key || truthy env = true ->
  dict_get "token" d = Some tok -> truthy tok = true ->
  api_init api_key env FileAbsent now (CallOk (PDict d)) p2 p3 =
  inl (mkObj (py_or api_key env) (mkApi tok (PInt now) (token_record tok now))).
Proof.
  intros Hk Hd Ht; unfold api_init.
  replace (negb (truthy api_key) && negb (truthy env)) with false
    by (destruct (truthy api_key), (truthy env); simpl in *; congruence).
  unfold read_token; cbn [file]; unfold refresh_token, getitem; rewrite Hd.
  cbn [token]; rewrite Ht; reflexivity.
Qed.

Lemma api_init_fresh_token_witness :
  api_init (PStr "key") PNone FileAbsent 5 (CallOk (PDict [("token", PStr "tk")]))
    (CallRaise Timeout) (CallRaise Timeout) =
  inl (mkObj (PStr "key") (mkApi (PStr "tk") (PInt 5) (token_record (PStr "tk") 5))).
Proof. apply api_init_fresh_token; reflexivity. Defined.

Lemma audit_log_query_no_page_token (s e ps : pyval) :
  ~ In "page_token" (map fst (audit_log_query s e ps)).
Proof.
  unfold audit_log_query, clean_params; simpl.
  destruct (is_not_None s), (is_not_None e), (is_not_None ps); simpl;
    intuition discriminate.
Qed.

(** [getAuditLogsViewV1] over well-formed pages returns under [audit_logs]
    the page lists concatenated in order, after one request per page; each
    request carries the cleaned query with [page_token] appended: [None]
    for the first, then the previous page's token. *)
Theorem get_audit_logs_pages (start_time end_time page_size : pyval)
    (prefix : list pyval) (last : pyval) (fuel : nat) :
  Forall (page_ok ["audit_logs"] true) prefix ->
  page_ok ["audit_logs"] false last ->
  (S (S (List.length prefix)) <= fuel)%nat ->
  get_audit_logs fuel start_time end_time page_size (map CallOk (prefix ++ [last])) =
  Some (PagesDone (mkPages (page_token last) (S (List.length prefix))
          [("audit_logs", List.concat (map (field_items "audit_logs") (prefix ++ [last])))]
          (PNone :: map page_token prefix)),
        map (fun t => audit_log_query start_time end_time page_size ++ [("page_token", t)])
            (PNone :: map page_token prefix)).
Proof.
  intros Hpre Hlast Hf; unfold get_audit_logs, request_all_pages.
  assert (Hnd : NoDup ["audit_logs"]) by (repeat constructor; simpl; tauto).
  rewrite (init_data_acc _ Hnd).
  rewrite (pages_loop_concat _ last Hnd Hlast prefix fuel PNone O (fun _ => []) []
             Hpre Hf eq_refl).
  rewrite Nat.add_0_r; cbn [sent_tokens app].
  f_equal; f_equal; apply map_ext; intros t.
  unfold with_page_token; apply dict_set_absent, audit_log_query_no_page_token.
Qed.

Lemma get_audit_logs_pages_witness :
  get_audit_logs 3 (PInt 10) (PInt 20) (PInt DEFAULT_PAGE_SIZE)
    (map CallOk ([PDict [("audit_logs", PList [PInt 1]); ("next_page_token", PStr "T")]] ++
                 [PDict [("audit_logs", PList [PInt 2]); ("next_page_token", PNone)]])) =
  Some (PagesDone (mkPages PNone 2 [("audit_logs", [PInt 1; PInt 2])] [PNone; PStr "T"]),
        [[("start_time", PInt 10); ("end_time", PInt 20); ("page_size", PInt 100);
          ("page_token", PNone)];
         [("start_time", PInt 10); ("end_time", PInt 20); ("page_size", PInt 100);
          ("page_token", PStr "T")]]).
Proof.
  apply (get_audit_logs_pages (PInt 10) (PInt 20) (PInt DEFAULT_PAGE_SIZE)
           [PDict [("audit_logs", PList [PInt 1]); ("next_page_token", PStr "T")]]
           (PDict [("audit_logs", PList [PInt 2]); ("next_page_token", PNone)]) 3).
  - repeat constructor.
    eexists; eexists; split; [reflexivity|]; split; [reflexivity|]; split; [reflexivity|].
    intros k [<-|[]]; eexists; reflexivity.
  - eexists; eexists; split; [reflexivity|]; split; [reflexivity|]; split; [reflexivity|].
    intros k [<-|[]]; eexists; reflexivity.
  - simpl; lia.
Defined.

(** Without [--start]/[--end] the script queries the last completed
    15-minute interval: [end_time - start_time = 900], [end_time] is a
    quarter-hour boundary of the local clock, and
    [end_time <= now < end_time + 900]. Giving only one of the two flags is
    rejected, and two given flags are used as they are. *)
Theorem cli_time_window_default (now_local offset : Z) :
  (exists start_time end_time,
     cli_time_window None None now_local offset = Some (start_time, end_time) /\
     end_time - start_time = 900 /\
     (end_time + offset) mod 900 = 0 /\
     end_time <= now_local - offset < end_time + 900) /\
  (forall s, cli_time_window (Some s) None now_local offset = None) /\
  (forall e, cli_time_window None (Some e) now_local offset = None) /\
  (forall s e, cli_time_window (Some s) (Some e) now_local offset = Some (s, e)).
Proof.
  split; [|split; [reflexivity | split; reflexivity]].
  unfold cli_time_window, CRON_INTERVAL_MINUTES.
  set (q := now_local / 60).
  assert (Hq : now_local = 60 * q + now_local mod 60) by (apply Z.div_mod; lia).
  assert (Hm : 0 <= now_local mod 60 < 60) by (apply Z.mod_pos_bound; lia).
  assert (H15 : (q mod 60) mod 15 = q mod 15).
  { rewrite (Z.div_mod q 60) at 2 by lia.
    replace (60 * (q / 60) + q mod 60) with (q mod 60 + (4 * (q / 60)) * 15) by lia.
    rewrite Z.mod_add by lia; reflexivity. }
  rewrite H15.
  assert (Hq15 : q = 15 * (q / 15) + q mod 15) by (apply Z.div_mod; lia).
  assert (Hm15 : 0 <= q mod 15 < 15) by (apply Z.mod_pos_bound; lia).
  eexists; eexists; split; [reflexivity|].
  split; [lia|].
  split.
  - replace (now_local - now_local mod 60 - q mod 15 * 60 - offset + offset)
      with ((q / 15) * 900) by lia.
    apply Z.mod_mul; lia.
  - lia.
Qed.

(** The script prints, in order, exactly the audit-log entries whose
    [event_name] is one of [INTERESTED_EVENTS]; an entry without
    [event_name] stops it with [KeyError('event_name')] after the matching
    entries before it have been printed. *)
Theorem print_interesting_filter (good : list pyval) (bad : list (string * pyval))
    (rest : list pyval) :
  Forall (fun a => exists d v, a = PDict d /\ dict_get "event_name" d = Some v) good ->
  dict_get "event_name" bad = None ->
  print_interesting good =
  (filter (fun a => in_str_list (event_name_of a) INTERESTED_EVENTS) good, None) /\
  print_interesting (good ++ PDict bad :: rest) =
  (filter (fun a => in_str_list (event_name_of a) INTERESTED_EVENTS) good,
   Some (KeyError "event_name")).
Proof.
  intros Hgood Hbad.
  induction Hgood as [|a good [d [v [-> Hv]]] _ [IH1 IH2]].
  - simpl; rewrite Hbad; split; reflexivity.
  - cbn [print_interesting app filter].
    unfold event_name_of; cbn [getitem]; rewrite Hv.
    unfold event_name_of in IH1, IH2; rewrite IH1, IH2.
    split; destruct (in_str_list v INTERESTED_EVENTS); reflexivity.
Qed.

Lemma print_interesting_filter_witness :
  print_interesting
    ([PDict [("event_name", PStr "Live Stream Started")];
      PDict [("event_name", PStr "User Login")]] ++
     PDict [("id", PInt 3)] :: []) =
  ([PDict [("event_name", PStr "Live Stream Started")]], Some (KeyError "event_name")).
Proof.
  refine (proj2 (print_interesting_filter _ [("id", PInt 3)] [] _ eq_refl)).
  repeat constructor; do 2 eexists; split; reflexivity.
Defined.
